(** * ReplyBox: the logger and the environment accessor

    A shallow embedding of [src/lib/logger.ts] and [src/lib/env.ts], and of
    the use [src/index.ts] makes of them at start-up.

    Both files are a few lines of glue around the JavaScript host: property
    reads on objects ([levels[level]], [process.env[env]]), the [Intl]
    formatters behind [Date.prototype.toLocaleDateString], chalk, and
    [console.log].  The embedding keeps the glue as it is written and makes
    the host explicit:

    - module [Js] holds the fragments of the language the two files rely on
      (values, truthiness, [??], exceptions, the conversion of a message to
      a string, reads that fall through to a prototype);
    - record [Host] holds what a deployment supplies (the two formatters and
      chalk's rendering for the terminal); [SampleHost] is one such host, to
      run the model on;
    - record [World] is the process state the code reads and writes
      ([process.env], the static [Logger.locale], the standard output, the
      clock);
    - [Logger], [setOrGetNodeEnv], [getEnv] and [index] follow the sources
      line by line in a state-and-exception monad. *)

From Stdlib Require Import ZArith String Ascii List Lia.
From stdpp Require Import base option gmap strings list pretty.

Local Open Scope string_scope.
Local Open Scope list_scope.
Local Open Scope Z_scope.

(** ** Strings *)

(** [String.prototype.toUpperCase], on ASCII letters.  Bytes outside [a-z]
    are kept; the level names of the sources are ASCII. *)
Definition upper_ascii (c : ascii) : ascii :=
  let n := nat_of_ascii c in
  if ((97 <=? n) && (n <=? 122))%nat then ascii_of_nat (n - 32) else c.

Fixpoint toUpperCase (s : string) : string :=
  match s with
  | EmptyString => EmptyString
  | String c rest => String (upper_ascii c) (toUpperCase rest)
  end.


(** [text] begins with [key]. *)
Fixpoint starts_with (key text : string) : bool :=
  match key, text with
  | EmptyString, _ => true
  | String k key', String c text' => Ascii.eqb k c && starts_with key' text'
  | String _ _, EmptyString => false
  end.


(** ** The JavaScript fragments used by the sources *)
Module Js.

Inductive Error : Type :=
| RangeError
| TypeError.

(** The function-valued own properties of [Object.prototype]. *)
Inductive ObjectBuiltin : Type :=
| Object_constructor
| defineGetter
| defineSetter
| hasOwnProperty
| lookupGetter
| lookupSetter
| isPrototypeOf
| propertyIsEnumerable
| Object_toString
| valueOf
| toLocaleString.

(** The values that can flow through the two files. *)
Inductive Value : Type :=
| VUndefined
| VString (s : string)
| VBool (b : bool)
| VStringObject (s : string)        (* the wrapper made by [Object("...")] *)
| VObjectPrototype                  (* [Object.prototype] itself *)
| VBuiltin (f : ObjectBuiltin)
| VEnvPrototype                     (* the prototype of the [process.env] object *)
| VEnvConstructor.                  (* its [constructor], a nameless native function *)

(** How an expression completes. *)
Inductive Completion (A : Type) : Type :=
| Normal (a : A)
| Throw (e : Error).
Global Arguments Normal {A} a.
Global Arguments Throw {A} e.

(** A message is [any] value.  The logger hands it to chalk, which joins its
    arguments into one string, so what matters of a message is how its
    conversion to a string ends.  [MOther] is a number, a boolean or an
    object, with what [String(v)] yields: its text, or the exception it
    throws, [TypeError] for an object that has no prototype.  A conversion
    that runs code of the caller (a [toString] method) is taken to do nothing
    but return its text or throw. *)
Inductive Message : Type :=
| MString (s : string)
| MUndefined
| MNull
| MSymbol
| MOther (conversion : Completion string).

(** A string is a message. *)
Global Coercion MString : string >-> Message.

(** The text of an element in [Array.prototype.join]: [undefined] and [null]
    give the empty string, a Symbol cannot be converted. *)
Definition join_text (m : Message) : Completion string :=
  match m with
  | MString s => Normal s
  | MUndefined | MNull => Normal EmptyString
  | MSymbol => Throw TypeError
  | MOther conversion => conversion
  end.

Definition builtin_name (f : ObjectBuiltin) : string :=
  match f with
  | Object_constructor => "Object"
  | defineGetter => "__defineGetter__"
  | defineSetter => "__defineSetter__"
  | hasOwnProperty => "hasOwnProperty"
  | lookupGetter => "__lookupGetter__"
  | lookupSetter => "__lookupSetter__"
  | isPrototypeOf => "isPrototypeOf"
  | propertyIsEnumerable => "propertyIsEnumerable"
  | Object_toString => "toString"
  | valueOf => "valueOf"
  | toLocaleString => "toLocaleString"
  end.

(** An object, as the list of its own properties. *)
Fixpoint own_property {A} (o : list (string * A)) (key : string) : option A :=
  match o with
  | [] => None
  | (k, v) :: rest => if String.eqb k key then Some v else own_property rest key
  end.

(** The own properties of [Object.prototype]; reading the accessor
    [__proto__] through an object whose prototype is [Object.prototype]
    yields [Object.prototype]. *)
Definition Object_prototype : list (string * Value) :=
  [ ("constructor", VBuiltin Object_constructor);
    ("__defineGetter__", VBuiltin defineGetter);
    ("__defineSetter__", VBuiltin defineSetter);
    ("hasOwnProperty", VBuiltin hasOwnProperty);
    ("__lookupGetter__", VBuiltin lookupGetter);
    ("__lookupSetter__", VBuiltin lookupSetter);
    ("isPrototypeOf", VBuiltin isPrototypeOf);
    ("propertyIsEnumerable", VBuiltin propertyIsEnumerable);
    ("toString", VBuiltin Object_toString);
    ("valueOf", VBuiltin valueOf);
    ("__proto__", VObjectPrototype);
    ("toLocaleString", VBuiltin toLocaleString) ].

(** What a read [o[key]] finds once [o] has no own property [key] and the
    lookup reaches [Object.prototype]; [undefined] when nothing is there.
    An object literal such as [levels] has [Object.prototype] as its
    prototype. *)
Definition object_prototype (key : string) : Value :=
  default VUndefined (own_property Object_prototype key).

(** The [process.env] object has a prototype of its own between itself and
    [Object.prototype]: that object is what [__proto__] reads as, and it
    holds a [constructor], the native function the object was made by.  Every
    other name is looked up on [Object.prototype]. *)
Definition process_env_prototype (key : string) : Value :=
  if String.eqb key "constructor" then VEnvConstructor
  else if String.eqb key "__proto__" then VEnvPrototype
  else object_prototype key.

(** [ToBoolean]: what [!v] and [if (v)] test. *)
Definition truthy (v : Value) : bool :=
  match v with
  | VUndefined => false
  | VString s => negb (String.eqb s EmptyString)
  | VBool b => b
  | VStringObject _ | VObjectPrototype | VBuiltin _
  | VEnvPrototype | VEnvConstructor => true
  end.

(** [a ?? b]: [b] only when [a] is nullish. *)
Definition coalesce (a b : Value) : Value :=
  match a with
  | VUndefined => b
  | _ => a
  end.

(** An optional argument: omitted is [undefined]. *)
Definition of_optional (a : option string) : Value :=
  match a with
  | Some s => VString s
  | None => VUndefined
  end.

(** [String(v)], the coercion applied by an assignment to [process.env]. *)
Definition ToString (v : Value) : string :=
  match v with
  | VUndefined => "undefined"
  | VString s => s
  | VBool true => "true"
  | VBool false => "false"
  | VStringObject s => s
  | VObjectPrototype | VEnvPrototype => "[object Object]"
  | VBuiltin f => "function " +:+ builtin_name f +:+ "() { [native code] }"
  | VEnvConstructor => "function () { [native code] }"
  end.

(** The plain call [f(a, b)] of a value read off [Object.prototype], in
    strict code (so [this] is [undefined]), with a string first argument;
    none of the builtins converts [b]:
    - [Object(a, b)] wraps [a];
    - [Object.prototype.toString] answers for an undefined receiver;
    - [isPrototypeOf] returns [false] for a primitive argument before it
      looks at the receiver;
    - the other builtins start with [ToObject(this)] and throw;
    - anything that is not a function cannot be called. *)
Definition call_plain (f : Value) (a : string) (b : Message) : Completion Value :=
  match f with
  | VBuiltin Object_constructor => Normal (VStringObject a)
  | VBuiltin Object_toString => Normal (VString "[object Undefined]")
  | VBuiltin isPrototypeOf => Normal (VBool false)
  | VBuiltin _ => Throw TypeError
  | _ => Throw TypeError
  end.

End Js.
Export Js.

(** ** Dates *)

(** A [Date] holds a time value in milliseconds since the epoch, or is
    invalid ([new Date(NaN)]). *)
Inductive Date : Type :=
| DateOf (ms : Z)
| InvalidDate.

(** ** chalk *)

Inductive Modifier : Type :=
| bgRed | white | red | yellow | blue | green.

(** A [ChalkInstance] is the chain of modifiers it was built from. *)
Definition ChalkInstance : Type := list Modifier.

Module chalk.
Definition bgRed_white : ChalkInstance := [bgRed; white].   (* chalk.bgRed.white *)
Definition red : ChalkInstance := [red].
Definition yellow : ChalkInstance := [yellow].
Definition blue : ChalkInstance := [blue].
Definition green : ChalkInstance := [green].
End chalk.

(** ** The host *)

(** What the deployment supplies.  The formatters take the date and the
    [locales] argument; ECMA-402 has them throw [RangeError] when the argument
    is not a structurally valid language tag.  [paint c text] is the string
    chalk returns for [c(text)]: for plain [text], [text] between the escape
    codes of [c], or [text] alone when the terminal has no colour support
    (see [chalk_wraps] below). *)
Record Host : Type := {
  toLocaleDateString : Date -> string -> Completion string;
  toLocaleTimeString : Date -> string -> Completion string;
  paint : ChalkInstance -> string -> string
}.

(** ** The process state *)

Record World : Type := {
  env : gmap string string;     (* process.env *)
  locale : string;              (* private static Logger.locale *)
  console : list Value;         (* the arguments of the console.log calls, oldest first *)
  clock : Z                     (* what the next [new Date()] reads *)
}.

Definition set_env (f : gmap string string -> gmap string string) (w : World) : World :=
  {| env := f (env w); locale := locale w; console := console w; clock := clock w |}.

Definition set_locale (l : string) (w : World) : World :=
  {| env := env w; locale := l; console := console w; clock := clock w |}.

Definition set_console (f : list Value -> list Value) (w : World) : World :=
  {| env := env w; locale := locale w; console := f (console w); clock := clock w |}.

(** The passing of time: the state when the clock reads [now]. *)
Definition set_clock (now : Z) (w : World) : World :=
  {| env := env w; locale := locale w; console := console w; clock := now |}.

(** The state when the modules have been loaded: [Logger.locale] holds its
    initializer and nothing has been printed. *)
Definition initial_world (environment : gmap string string) (now : Z) : World :=
  {| env := environment; locale := "en-US"; console := []; clock := now |}.

(** ** Computations: state, and an exception or a result *)

Definition JS (A : Type) : Type := World -> Completion A * World.

Definition ret {A} (a : A) : JS A := fun w => (Normal a, w).

Definition bind {A B} (m : JS A) (k : A -> JS B) : JS B :=
  fun w =>
    match m w with
    | (Normal a, w') => k a w'
    | (Throw e, w') => (Throw e, w')
    end.

Notation "'let*' x ':=' m 'in' k" := (bind m (fun x => k))
  (at level 10, x name, m at level 100, k at level 200).

(** A completion computed without touching the state. *)
Definition lift {A} (c : Completion A) : JS A := fun w => (c, w).

(** [new Date()] *)
Definition new_Date : JS Date := fun w => (Normal (DateOf (clock w)), w).

(** A parameter with the default [= new Date()]. *)
Definition date_or_now (date : option Date) : JS Date :=
  match date with
  | Some d => ret d
  | None => new_Date
  end.

(** [console.log(v)] *)
Definition console_log (v : Value) : JS unit :=
  fun w => (Normal tt, set_console (fun out => out ++ [v]) w).

(** [process.env[key]]: the variable when there is one, else whatever the
    lookup finds along the prototypes of [process.env]. *)
Definition process_env_get (key : string) : JS Value :=
  fun w =>
    (Normal match env w !! key with
            | Some s => VString s
            | None => process_env_prototype key
            end, w).

(** The clock moves on: the statements that follow run when it reads
    [now]. *)
Definition later (now : Z) : JS unit :=
  fun w => (Normal tt, set_clock now w).

(** [process.env[key] = v]: the value is stored as a string. *)
Definition process_env_set (key : string) (v : Value) : JS unit :=
  fun w => (Normal tt, set_env (insert key (ToString v)) w).

(** ** [src/lib/logger.ts] *)

(** [const levels: Record<LogLevel, ChalkInstance>] *)
Definition levels : list (string * ChalkInstance) :=
  [ ("fatal", chalk.bgRed_white);
    ("error", chalk.red);
    ("warning", chalk.yellow);
    ("debug", chalk.blue);
    ("information", chalk.green) ].

(** [levels[level]]: the own property, else what [Object.prototype] has. *)
Definition levels_get (level : string) : ChalkInstance + Value :=
  match own_property levels level with
  | Some style => inl style
  | None => inr (object_prototype level)
  end.

(** [logLevel(a, b)].  A chalk instance joins its arguments with a space,
    which converts [b] to a string, and styles the result; any other value is
    called as it is. *)
Definition call_logLevel (host : Host) (logLevel : ChalkInstance + Value)
    (a : string) (b : Message) : Completion Value :=
  match logLevel with
  | inl style =>
      match join_text b with
      | Normal text => Normal (VString (paint host style (a +:+ " " +:+ text)))
      | Throw e => Throw e
      end
  | inr v => call_plain v a b
  end.

Module Logger.
Section WithHost.

Context (host : Host).

(** [Logger.locale], read. *)
Definition this_locale : JS string := fun w => (Normal (locale w), w).

Definition setLocale (locale : string) : JS unit :=
  fun w => (Normal tt, set_locale locale w).

(** [private static log(message, level = "information", date = new Date())] *)
Definition log (message : Message) (level : option string) (date : option Date) : JS unit :=
  let level := default "information" level in
  let* date := date_or_now date in
  let logLevel := levels_get level in
  let* l := this_locale in
  let* localeDate := lift (toLocaleDateString host date l) in
  let* l := this_locale in
  let* time := lift (toLocaleTimeString host date l) in
  let* styled :=
    lift (call_logLevel host logLevel
            ("[" +:+ toUpperCase level +:+ "] (" +:+ localeDate +:+ " - " +:+ time +:+ "):")
            message) in
  console_log styled.

Definition fatal (message : Message) (date : option Date) : JS unit :=
  let* date := date_or_now date in
  let level := "fatal" in
  log message (Some level) (Some date).

Definition error (message : Message) (date : option Date) : JS unit :=
  let* date := date_or_now date in
  let level := "error" in
  log message (Some level) (Some date).

Definition warning (message : Message) (date : option Date) : JS unit :=
  let* date := date_or_now date in
  let level := "warning" in
  log message (Some level) (Some date).

Definition debug (message : Message) (date : option Date) : JS unit :=
  let* date := date_or_now date in
  let level := "debug" in
  log message (Some level) (Some date).

Definition info (message : Message) (date : option Date) : JS unit :=
  let* date := date_or_now date in
  let level := "information" in
  log message (Some level) (Some date).

End WithHost.
End Logger.

(** [type LogLevel = "fatal" | "error" | "warning" | "debug" | "information"] *)
Inductive LogLevel : Type :=
| fatal | error | warning | debug | information.

Definition LogLevel_name (level : LogLevel) : string :=
  match level with
  | fatal => "fatal"
  | error => "error"
  | warning => "warning"
  | debug => "debug"
  | information => "information"
  end.

(** The public method of each level. *)
Definition Logger_method (host : Host) (level : LogLevel) : Message -> option Date -> JS unit :=
  match level with
  | fatal => Logger.fatal host
  | error => Logger.error host
  | warning => Logger.warning host
  | debug => Logger.debug host
  | information => Logger.info host
  end.

(** The style [levels] gives each level. *)
Definition LogLevel_style (level : LogLevel) : ChalkInstance :=
  match level with
  | fatal => chalk.bgRed_white
  | error => chalk.red
  | warning => chalk.yellow
  | debug => chalk.blue
  | information => chalk.green
  end.

(** ** [src/lib/env.ts] *)

(** On import the module runs dotenv's [config()], which fills [process.env]
    from the [.env] file; the environment a [World] starts with is the result
    of that. *)

(** [setOrGetNodeEnv(nodeEnv?)].  The argument is any string, as the
    declaration file has it; [NodeEnv] narrows it to three of them. *)
Definition setOrGetNodeEnv (nodeEnv : option string) : JS Value :=
  let* current := process_env_get "NODE_ENV" in
  let* _ := process_env_set "NODE_ENV"
              (coalesce (of_optional nodeEnv) (coalesce current (VString "development"))) in
  process_env_get "NODE_ENV".

(** [getEnv(env)] *)
Definition getEnv (host : Host) (env : string) : JS Value :=
  let* variable := process_env_get env in
  if negb (truthy variable) then
    let* _ := Logger.error host
                (MString
                   ("The key '" +:+ env +:+
                    "' does not exist! Check the '*.env' path or key name and ensure it has the correct spellng."))
                None in
    ret VUndefined
  else
    ret variable.

(** ** A host to run the model on *)

(** A small host to compute with, not a description of Node.  It is in the
    UTC time zone and has data for three locales, with the renderings quoted
    in the documentation comments of [logger.ts] ([11/16/2025 - 5:50:22 PM],
    [16/11/2025 - 17:50:22], [16.11.2025 - 17:50:22]), for the years from 1
    on; every other tag it accepts is rendered as its default, [en-US].  It
    rejects with [RangeError] the tags that are not made of a language subtag
    followed by subtags of one to eight letters and digits, which is less
    than BCP 47 asks for.  [paint] is chalk's output for sixteen colours:
    the text between the ANSI codes of the style, with the style closed and
    reopened around each line feed, and reopened after each place where the
    text itself closes it. *)
Module SampleHost.

Definition is_alpha (c : ascii) : bool :=
  let n := nat_of_ascii c in
  (((65 <=? n) && (n <=? 90)) || ((97 <=? n) && (n <=? 122)))%nat.

Definition is_alphanum (c : ascii) : bool :=
  let n := nat_of_ascii c in
  (is_alpha c || ((48 <=? n) && (n <=? 57)))%nat.

Fixpoint all_chars (p : ascii -> bool) (s : string) : bool :=
  match s with
  | EmptyString => true
  | String c rest => p c && all_chars p rest
  end.

(** No escape character in [s]. *)
Definition plain_escape_free (s : string) : bool :=
  all_chars (fun c => negb (Ascii.eqb c (ascii_of_nat 27))) s.

(** The subtags of a tag: the pieces between hyphens. *)
Fixpoint subtags (current : string) (s : string) : list string :=
  match s with
  | EmptyString => [current]
  | String c rest =>
      if Ascii.eqb c "-" then current :: subtags EmptyString rest
      else subtags (current +:+ String c EmptyString) rest
  end.

Definition subtag_ok (t : string) : bool :=
  let n := String.length t in
  ((1 <=? n) && (n <=? 8))%nat && all_chars is_alphanum t.

Definition language_ok (t : string) : bool :=
  let n := String.length t in
  ((((2 <=? n) && (n <=? 3)) || ((5 <=? n) && (n <=? 8)))%nat) && all_chars is_alpha t.

Definition well_formed (tag : string) : bool :=
  match subtags EmptyString tag with
  | [] => false
  | language :: rest => language_ok language && forallb subtag_ok rest
  end.

Inductive Rendering : Type := en_US | fr_FR | de_DE.

Definition resolve (tag : string) : Rendering :=
  match tag with
  | "fr-FR" => fr_FR
  | "de-DE" => de_DE
  | _ => en_US
  end.

(** Year, month and day of a count of days since 1970-01-01. *)
Definition civil (days : Z) : Z * Z * Z :=
  let z := days + 719468 in
  let era := z / 146097 in
  let doe := z - era * 146097 in
  let yoe := (doe - doe / 1460 + doe / 36524 - doe / 146096) / 365 in
  let doy := doe - (365 * yoe + yoe / 4 - yoe / 100) in
  let mp := (5 * doy + 2) / 153 in
  let d := doy - (153 * mp + 2) / 5 + 1 in
  let m := if mp <? 10 then mp + 3 else mp - 9 in
  let y := yoe + era * 400 + (if m <=? 2 then 1 else 0) in
  (y, m, d).

Definition two_digits (n : Z) : string :=
  if n <? 10 then "0" +:+ pretty n else pretty n.

Definition render_date (r : Rendering) (ms : Z) : string :=
  let '(y, m, d) := civil (ms / 86400000) in
  match r with
  | en_US => pretty m +:+ "/" +:+ pretty d +:+ "/" +:+ pretty y
  | fr_FR => two_digits d +:+ "/" +:+ two_digits m +:+ "/" +:+ pretty y
  | de_DE => pretty d +:+ "." +:+ pretty m +:+ "." +:+ pretty y
  end.

Definition render_time (r : Rendering) (ms : Z) : string :=
  let secs := (ms mod 86400000) / 1000 in
  let h := secs / 3600 in
  let mi := (secs mod 3600) / 60 in
  let s := secs mod 60 in
  match r with
  | en_US =>
      pretty (if h mod 12 =? 0 then 12 else h mod 12) +:+ ":" +:+ two_digits mi +:+ ":" +:+
      two_digits s +:+ (if h <? 12 then " AM" else " PM")
  | fr_FR | de_DE => two_digits h +:+ ":" +:+ two_digits mi +:+ ":" +:+ two_digits s
  end.

(** An invalid date is answered before the locale is looked at. *)
Definition format (render : Rendering -> Z -> string) (date : Date) (locales : string)
    : Completion string :=
  match date with
  | InvalidDate => Normal "Invalid Date"
  | DateOf ms =>
      if well_formed locales then Normal (render (resolve locales) ms)
      else Throw RangeError
  end.

Definition escape (code : string) : string :=
  String (ascii_of_nat 27) ("[" +:+ code +:+ "m").

Definition open_code (m : Modifier) : string :=
  match m with
  | bgRed => "41" | white => "37" | red => "31"
  | yellow => "33" | blue => "34" | green => "32"
  end.

Definition close_code (m : Modifier) : string :=
  match m with
  | bgRed => "49"
  | _ => "39"
  end.

(** The codes that open a style, outermost first, and those that close it,
    innermost first. *)
Fixpoint openAll (c : ChalkInstance) : string :=
  match c with
  | [] => EmptyString
  | m :: rest => escape (open_code m) +:+ openAll rest
  end.

Fixpoint closeAll (c : ChalkInstance) : string :=
  match c with
  | [] => EmptyString
  | m :: rest => closeAll rest +:+ escape (close_code m)
  end.

(** [prefix] and [postfix] put around every line feed, and around a carriage
    return with its line feed. *)
Fixpoint encase (prefix postfix : string) (s : string) : string :=
  match s with
  | EmptyString => EmptyString
  | String c rest =>
      if Ascii.eqb c (ascii_of_nat 10) then
        prefix +:+ String c (postfix +:+ encase prefix postfix rest)
      else if Ascii.eqb c (ascii_of_nat 13) then
        match rest with
        | String c2 rest2 =>
            if Ascii.eqb c2 (ascii_of_nat 10) then
              prefix +:+ String c (String c2 (postfix +:+ encase prefix postfix rest2))
            else String c (encase prefix postfix rest)
        | EmptyString => String c EmptyString
        end
      else String c (encase prefix postfix rest)
  end.

(** [reopen] put after every occurrence of [close] in [s]; [skip] counts the
    characters of an occurrence that are still to be copied. *)
Fixpoint reopen_after (close reopen : string) (skip : nat) (s : string) : string :=
  match s with
  | EmptyString => EmptyString
  | String c rest =>
      let skip :=
        match skip with
        | O => if starts_with close s then String.length close else O
        | _ => skip
        end in
      match skip with
      | O => String c (reopen_after close reopen O rest)
      | S O => String c (reopen +:+ reopen_after close reopen O rest)
      | S k => String c (reopen_after close reopen k rest)
      end
  end.

(** Text that holds an escape character has each modifier of the style,
    innermost first, reopened after the places where the text closes it. *)
Definition reopen_all (c : ChalkInstance) (s : string) : string :=
  if plain_escape_free s then s
  else
    fold_left
      (fun s m => reopen_after (escape (close_code m)) (escape (open_code m)) O s)
      (rev c) s.

Definition ansi (c : ChalkInstance) (text : string) : string :=
  match c, text with
  | [], _ => text
  | _, EmptyString => EmptyString
  | _, _ =>
      openAll c +:+ encase (closeAll c) (openAll c) (reopen_all c text) +:+ closeAll c
  end.

Definition host : Host :=
  {| toLocaleDateString := format render_date;
     toLocaleTimeString := format render_time;
     paint := ansi |}.

(** A terminal without colour support: chalk returns the text. *)
Definition plain_host : Host :=
  {| toLocaleDateString := format render_date;
     toLocaleTimeString := format render_time;
     paint := fun _ text => text |}.

End SampleHost.

(** A process with no environment variables, at 2025-01-01T00:00:00Z. *)
Definition empty_world : World := initial_world ∅ 1735689600000.


(** ** Vocabulary of the statements *)

(** The line of the specification,
    [[<LEVEL>] (<localized-date> - <localized-time>): <message>]. *)
Definition log_line (LEVEL localeDate time message : string) : string :=
  "[" +:+ LEVEL +:+ "] (" +:+ localeDate +:+ " - " +:+ time +:+ "): " +:+ message.

(** The state after one more [console.log]. *)
Definition printed (v : Value) (w : World) : World :=
  set_console (fun out => out ++ [v]) w.

(** The timestamp a call works with: its argument, or the clock. *)
Definition timestamp (date : option Date) (w : World) : Date :=
  match date with
  | Some d => d
  | None => DateOf (clock w)
  end.

(** A level name of the closed set. *)
Definition known_level (level : string) : Prop :=
  exists l : LogLevel, level = LogLevel_name l.

(** ** Statements of the specification, as predicates on one call *)





(** §4.1: a public logging call does not throw. *)
Definition completes (host : Host) (l : LogLevel) (message : Message)
    (date : option Date) (w : World) : Prop :=
  exists w' : World, Logger_method host l message date w = (Normal tt, w').

(** §3, §7: [Logger.log] raises when its level is not of the closed set. *)
Definition fails_fast (host : Host) (message : Message) (level : string)
    (date : option Date) (w : World) : Prop :=
  ~ known_level level ->
  exists e : Error, fst (Logger.log host message (Some level) date w) = Throw e.



(** The calls the two modules offer, [Logger.setLocale] apart. *)
Inductive Call : Type :=
| call_method (l : LogLevel) (message : Message) (date : option Date)
| call_getEnv (key : string)
| call_setOrGetNodeEnv (nodeEnv : option string).

(** The state a call leaves, whether it returns or throws. *)
Definition after (host : Host) (c : Call) (w : World) : World :=
  match c with
  | call_method l message date => snd (Logger_method host l message date w)
  | call_getEnv key => snd (getEnv host key w)
  | call_setOrGetNodeEnv nodeEnv => snd (setOrGetNodeEnv nodeEnv w)
  end.

(** The states a process reaches from [w] without calling
    [Logger.setLocale]. *)
Inductive reached (host : Host) (w : World) : World -> Prop :=
| reached_start : reached host w w
| reached_call (w1 : World) (c : Call) :
    reached host w w1 -> reached host w (after host c w1).

(** What a logging call hands to [console.log] when timestamps are formatted
    with the locale [L], or the exception that ends it before. *)
Definition line_in_locale (host : Host) (L : string) (l : LogLevel)
    (message : Message) (date : Date) : Completion Value :=
  match toLocaleDateString host date L with
  | Throw e => Throw e
  | Normal d =>
      match toLocaleTimeString host date L with
      | Throw e => Throw e
      | Normal t =>
          match join_text message with
          | Throw e => Throw e
          | Normal text =>
              Normal (VString (paint host (LogLevel_style l)
                                 (log_line (toUpperCase (LogLevel_name l)) d t text)))
          end
      end
  end.

(** Print the value, or propagate the exception. *)
Definition emit (c : Completion Value) : JS unit :=
  fun w =>
    match c with
    | Throw e => (Throw e, w)
    | Normal v => (Normal tt, printed v w)
    end.

(** Successive calls of [setOrGetNodeEnv], with their results. *)
Fixpoint setOrGetNodeEnv_each (args : list (option string)) : JS (list Value) :=
  match args with
  | [] => ret []
  | nodeEnv :: rest =>
      let* r := setOrGetNodeEnv nodeEnv in
      let* rs := setOrGetNodeEnv_each rest in
      ret (r :: rs)
  end.

(** ** [src/index.ts]: the configuration read at start-up *)

(** The module reads three constants when it is loaded and, once the server
    listens, reports them.  What lies between, [express()], the OpenAI helper
    and the routes, belongs to other packages and is not modelled. *)
Module index.

(** [const nodeEnv], [const port], [const apiKey] *)
Record Constants : Type := {
  nodeEnv : Value;
  port : Value;
  apiKey : Value
}.

(** Lines 36, 43 and 50, in that order.  Time passes between them: [t_port]
    and [t_apiKey] are what the clock reads when the second and the third
    statement run. *)
Definition load (host : Host) (t_port t_apiKey : Z) : JS Constants :=
  let* nodeEnv := setOrGetNodeEnv None in
  let* _ := later t_port in
  let* port := getEnv host "EXPRESS_PORT" in
  let* _ := later t_apiKey in
  let* apiKey := getEnv host "OPENAI_API_KEY" in
  ret {| nodeEnv := nodeEnv; port := port; apiKey := apiKey |}.

(** The callback given to [app.listen]; a template literal converts its
    holes with [String]. *)
Definition listening (host : Host) (c : Constants) : JS unit :=
  Logger.info host
    (MString ("Application is in " +:+ ToString (nodeEnv c) +:+ " listening on " +:+
              ToString (port c) +:+ "."))
    None.

End index.

(** ** Vocabulary of the further properties *)

(** What [process.env[key]] evaluates to. *)
Definition process_env_value (key : string) (w : World) : Value :=
  match env w !! key with
  | Some s => VString s
  | None => process_env_prototype key
  end.

(** The message [getEnv] logs. *)
Definition missing_key_message (key : string) : string :=
  "The key '" +:+ key +:+
  "' does not exist! Check the '*.env' path or key name and ensure it has the correct spellng.".

(** One public logging call, and the time at which it is made. *)
Record LogCall : Type := {
  call_time : Z;
  call_level : LogLevel;
  call_message : Message;
  call_date : option Date
}.

(** Public logging calls made one after the other, each at its time; an
    exception ends the sequence. *)
Fixpoint log_each (host : Host) (calls : list LogCall) : JS unit :=
  match calls with
  | [] => ret tt
  | c :: rest =>
      fun w =>
        bind (Logger_method host (call_level c) (call_message c) (call_date c))
          (fun _ => log_each host rest)
          (set_clock (call_time c) w)
  end.

(** The timestamp of a call: its argument, or the time it is made at. *)
Definition call_timestamp (c : LogCall) : Date :=
  match call_date c with
  | Some d => d
  | None => DateOf (call_time c)
  end.

(** The call [c] returns under the locale [L], the formatters and the
    conversion of its message having answered, and hands [v] to
    [console.log]. *)
Definition prints (host : Host) (L : string) (c : LogCall) (v : Value) : Prop :=
  line_in_locale host L (call_level c) (call_message c) (call_timestamp c) = Normal v.

(** The time of the last call, [now] if there is none. *)
Definition last_time (calls : list LogCall) (now : Z) : Z :=
  fold_left (fun _ c => call_time c) calls now.

(** The state with [lines] appended to the standard output. *)
Definition printed_all (lines : list Value) (w : World) : World :=
  set_console (fun out => out ++ lines) w.

(** * Proofs *)

(** ** Unfolding lemmas *)

(** Case analysis on the two answers of the host. *)
Ltac host_cases host :=
  destruct (toLocaleDateString host _ _) as [?d|?e]; [|try reflexivity];
  [destruct (toLocaleTimeString host _ _) as [?t|?e]; [|try reflexivity]|..].

Lemma append_assoc (a b c : string) : (a +:+ b) +:+ c = a +:+ b +:+ c.
Proof.
  induction a as [|x a IH]; [reflexivity | ].
  change (String x ((a +:+ b) +:+ c) = String x (a +:+ b +:+ c)).
  now f_equal.
Qed.

Lemma prefix_join (LEVEL d t message : string) :
  ("[" +:+ LEVEL +:+ "] (" +:+ d +:+ " - " +:+ t +:+ "):") +:+ " " +:+ message
  = log_line LEVEL d t message.
Proof.
  unfold log_line. rewrite !append_assoc. reflexivity.
Qed.

(** [levels] gives every level of the type its style. *)
Lemma levels_LogLevel (l : LogLevel) :
  levels_get (LogLevel_name l) = inl (LogLevel_style l).
Proof. destruct l; reflexivity. Qed.

(** Outside the type, [levels] has no own property. *)
Lemma levels_unknown (level : string) :
  ~ known_level level -> own_property levels level = None.
Proof.
  intros Hk. unfold levels, own_property.
  repeat match goal with
         | |- context [String.eqb ?k level] =>
             destruct (String.eqb_spec k level) as [E|_];
             [ exfalso; apply Hk; subst level | ]
         end;
    [ now exists fatal | now exists error | now exists warning
    | now exists debug | now exists information | reflexivity ].
Qed.

(** One run of [Logger.log], step by step. *)
Lemma log_run (host : Host) (message : Message) (level : string) (date : option Date) (w : World) :
  Logger.log host message (Some level) date w =
  match toLocaleDateString host (timestamp date w) (locale w) with
  | Throw e => (Throw e, w)
  | Normal d =>
      match toLocaleTimeString host (timestamp date w) (locale w) with
      | Throw e => (Throw e, w)
      | Normal t =>
          match call_logLevel host (levels_get level)
                  ("[" +:+ toUpperCase level +:+ "] (" +:+ d +:+ " - " +:+ t +:+ "):")
                  message with
          | Throw e => (Throw e, w)
          | Normal v => (Normal tt, printed v w)
          end
      end
  end.
Proof.
  unfold Logger.log, bind, lift, Logger.this_locale, console_log, printed.
  destruct date as [d0|]; simpl; host_cases host;
    destruct (call_logLevel host _ _ _); reflexivity.
Qed.

(** The five public methods funnel into [Logger.log]. *)
Lemma method_run (host : Host) (l : LogLevel) (message : Message)
    (date : option Date) (w : World) :
  Logger_method host l message date w =
  Logger.log host message (Some (LogLevel_name l)) (Some (timestamp date w)) w.
Proof. destruct l, date; reflexivity. Qed.

(** What a public method does, by cases on the host's answers. *)
Lemma method_cases (host : Host) (l : LogLevel) (message : Message)
    (date : option Date) (w : World) :
  Logger_method host l message date w =
  match toLocaleDateString host (timestamp date w) (locale w) with
  | Throw e => (Throw e, w)
  | Normal d =>
      match toLocaleTimeString host (timestamp date w) (locale w) with
      | Throw e => (Throw e, w)
      | Normal t =>
          match join_text message with
          | Throw e => (Throw e, w)
          | Normal text =>
              (Normal tt,
               printed (VString (paint host (LogLevel_style l)
                                   (log_line (toUpperCase (LogLevel_name l)) d t text))) w)
          end
      end
  end.
Proof.
  rewrite method_run, log_run. simpl timestamp. host_cases host.
  rewrite levels_LogLevel. cbn [call_logLevel].
  destruct (join_text message); [now rewrite prefix_join | reflexivity].
Qed.

(** A call formats with whatever [Logger.locale] holds. *)
Lemma method_uses_locale (host : Host) (l : LogLevel) (message : Message)
    (date : option Date) (w : World) :
  Logger_method host l message date w
  = emit (line_in_locale host (locale w) l message (timestamp date w)) w.
Proof.
  rewrite method_cases. unfold emit, line_in_locale. host_cases host.
  destruct (join_text message); reflexivity.
Qed.

(** ** What the calls leave alone *)

(** [Logger.log] never assigns [Logger.locale], whatever level it is given
    and however it completes. *)
Lemma log_keeps_locale (host : Host) (message : Message) (level : option string)
    (date : option Date) (w : World) :
  locale (snd (Logger.log host message level date w)) = locale w.
Proof.
  destruct level as [level|];
    [ | change (Logger.log host message None date w)
          with (Logger.log host message (Some "information") date w) ];
    rewrite log_run; host_cases host;
    destruct (call_logLevel host _ _ _); reflexivity.
Qed.

Lemma method_keeps_locale (host : Host) (l : LogLevel) (message : Message)
    (date : option Date) (w : World) :
  locale (snd (Logger_method host l message date w)) = locale w.
Proof. rewrite method_run. apply log_keeps_locale. Qed.

Lemma getEnv_keeps_locale (host : Host) (key : string) (w : World) :
  locale (snd (getEnv host key w)) = locale w.
Proof.
  unfold getEnv, bind, process_env_get.
  destruct (truthy _); [reflexivity|]. cbn [negb].
  match goal with
  | |- context [Logger.error host ?m None w] =>
      pose proof (method_keeps_locale host error m None w) as K;
      cbn [Logger_method] in K;
      destruct (Logger.error host m None w) as [[[]|e] w']
  end; exact K.
Qed.

Lemma setOrGetNodeEnv_keeps_locale (nodeEnv : option string) (w : World) :
  locale (snd (setOrGetNodeEnv nodeEnv w)) = locale w.
Proof. reflexivity. Qed.

Lemma after_keeps_locale (host : Host) (c : Call) (w : World) :
  locale (after host c w) = locale w.
Proof.
  destruct c; simpl.
  - apply method_keeps_locale.
  - apply getEnv_keeps_locale.
  - exact (setOrGetNodeEnv_keeps_locale nodeEnv w).
Qed.

Lemma reached_keeps_locale (host : Host) (w w' : World) :
  reached host w w' -> locale w' = locale w.
Proof.
  induction 1 as [|w1 c _ IH]; [reflexivity|].
  now rewrite after_keeps_locale.
Qed.

(** * Theorems *)

(** ** The examples of the documentation comments, on the sample host *)

(** [Logger.log("Oops! Something went wrong.", "error", new Date('2025-01-01'))] *)
Example log_error_custom_date :
  console (snd (Logger.log SampleHost.plain_host "Oops! Something went wrong."
                  (Some "error") (Some (DateOf 1735689600000)) empty_world))
  = [VString "[ERROR] (1/1/2025 - 12:00:00 AM): Oops! Something went wrong."].
Proof. reflexivity. Qed.

(** [Logger.log("Foo, bar.")]: the level defaults to [information]. *)
Example log_default_level :
  console (snd (Logger.log SampleHost.plain_host "Foo, bar." None None empty_world))
  = [VString "[INFORMATION] (1/1/2025 - 12:00:00 AM): Foo, bar."].
Proof. reflexivity. Qed.

(** [Logger.setLocale("de-DE"); Logger.error("Ein Fehler ist aufgetreten!")],
    on a terminal with colours. *)
Example error_in_german :
  console (snd (Logger.error SampleHost.host "Ein Fehler ist aufgetreten!"
                  (Some (DateOf 1763315422000))
                  (snd (Logger.setLocale "de-DE" empty_world))))
  = [VString (SampleHost.escape "31"
              +:+ "[ERROR] (16.11.2025 - 17:50:22): Ein Fehler ist aufgetreten!"
              +:+ SampleHost.escape "39")].
Proof. reflexivity. Qed.

(** [setOrGetNodeEnv("production")], then [setOrGetNodeEnv()]. *)
Example production_then_get :
  fst (bind (setOrGetNodeEnv (Some "production")) (fun _ => setOrGetNodeEnv None)
         empty_world)
  = Normal (VString "production").
Proof. reflexivity. Qed.

(** ** The logger *)















(** C5, counterexample.  [Logger.setLocale("de_DE")], then [Logger.fatal]:
    the call throws [RangeError].  And under the initial locale,
    [Logger.debug] of a Symbol, or of an object that has no prototype, throws
    [TypeError] when chalk joins it to the prefix. *)
Lemma completes_fails :
  ~ completes SampleHost.host fatal "Critical system failure."
      (Some (DateOf 1763315422000))
      (snd (Logger.setLocale "de_DE" empty_world))
  /\ ~ completes SampleHost.host debug MSymbol None empty_world
  /\ ~ completes SampleHost.host debug (MOther (Throw TypeError)) None empty_world.
Proof.
  split; [|split]; intros (w' & H).
  - assert (E : fst (Logger_method SampleHost.host fatal "Critical system failure."
                       (Some (DateOf 1763315422000))
                       (snd (Logger.setLocale "de_DE" empty_world)))
                = Throw RangeError)
      by (vm_compute; reflexivity).
    rewrite H in E. discriminate E.
  - assert (E : fst (Logger_method SampleHost.host debug MSymbol None empty_world)
                = Throw TypeError)
      by (vm_compute; reflexivity).
    rewrite H in E. discriminate E.
  - assert (E : fst (Logger_method SampleHost.host debug (MOther (Throw TypeError))
                       None empty_world)
                = Throw TypeError)
      by (vm_compute; reflexivity).
    rewrite H in E. discriminate E.
Qed.

(** C5, amended.  For every message, level and timestamp, a public logging
    call completes without throwing whenever the host's date and time
    formatters accept the current locale for that timestamp and the message
    can be converted to a string. *)
Theorem method_completes (host : Host) (l : LogLevel) (message : Message)
    (date : option Date) (w : World) :
  (exists d, toLocaleDateString host (timestamp date w) (locale w) = Normal d) ->
  (exists t, toLocaleTimeString host (timestamp date w) (locale w) = Normal t) ->
  (exists text, join_text message = Normal text) ->
  completes host l message date w.
Proof.
  intros [d Hd] [t Ht] [text Hm]. unfold completes.
  rewrite method_cases, Hd, Ht, Hm. eexists. reflexivity.
Qed.

Lemma method_completes_witness :
  (exists d, toLocaleDateString SampleHost.host (timestamp None empty_world)
               (locale empty_world) = Normal d)
  /\ (exists t, toLocaleTimeString SampleHost.host (timestamp None empty_world)
                  (locale empty_world) = Normal t)
  /\ (exists text, join_text (MOther (Normal "42")) = Normal text)
  /\ completes SampleHost.host warning (MOther (Normal "42")) None empty_world.
Proof.
  assert (Hd : exists d, toLocaleDateString SampleHost.host (timestamp None empty_world)
                           (locale empty_world) = Normal d)
    by (eexists; vm_compute; reflexivity).
  assert (Ht : exists t, toLocaleTimeString SampleHost.host (timestamp None empty_world)
                           (locale empty_world) = Normal t)
    by (eexists; vm_compute; reflexivity).
  assert (Hm : exists text, join_text (MOther (Normal "42")) = Normal text)
    by (eexists; reflexivity).
  exact (conj Hd (conj Ht (conj Hm
           (method_completes SampleHost.host warning (MOther (Normal "42")) None
              empty_world Hd Ht Hm)))).
Defined.

(** The converse: a call that completes had both formatters and the
    conversion of the message answer. *)
Lemma completes_only_then (host : Host) (l : LogLevel) (message : Message)
    (date : option Date) (w : World) :
  completes host l message date w ->
  (exists d, toLocaleDateString host (timestamp date w) (locale w) = Normal d)
  /\ (exists t, toLocaleTimeString host (timestamp date w) (locale w) = Normal t)
  /\ (exists text, join_text message = Normal text).
Proof.
  intros [w' H]. rewrite method_cases in H.
  destruct (toLocaleDateString host _ _) as [d|]; [|discriminate H].
  destruct (toLocaleTimeString host _ _) as [t|]; [|discriminate H].
  destruct (join_text message) as [text|]; [|discriminate H].
  repeat split; eexists; reflexivity.
Qed.

(** C10.  [Logger.locale] starts as ["en-US"]; none of [fatal], [error],
    [warning], [debug] and [info] changes it, whether the call returns or
    throws; [setLocale] is the one assignment. *)
Theorem locale_initial_and_kept :
  (forall environment now, locale (initial_world environment now) = "en-US")
  /\ (forall host l message date w,
        locale (snd (Logger_method host l message date w)) = locale w)
  /\ (forall L w, locale (snd (Logger.setLocale L w)) = L).
Proof.
  split; [reflexivity|]. split; [|reflexivity].
  intros host l message date w. apply method_keeps_locale.
Qed.

(** Every name [Object.prototype] answers to, other than the three whose
    builtin tolerates a plain call, yields a value whose call throws; so does
    every name it does not answer to. *)
Lemma call_inherited_throws (level a : string) (b : Message) :
  level <> "constructor" -> level <> "toString" -> level <> "isPrototypeOf" ->
  call_plain (object_prototype level) a b = Throw TypeError.
Proof.
  intros Hc Ht Hi. unfold object_prototype, Object_prototype, own_property.
  repeat match goal with
         | |- context [String.eqb ?k level] =>
             destruct (String.eqb_spec k level) as [E|_];
             [ try reflexivity; exfalso; congruence | ]
         end.
  reflexivity.
Qed.

(** C4, counterexample.  [levels["toString"]] is [Object.prototype.toString]:
    the call returns, and [[object Undefined]] goes to the standard output in
    place of a log line. *)
Lemma log_level_toString_prints :
  ~ fails_fast SampleHost.host "Custom message!" "toString" None empty_world.
Proof.
  intros H.
  destruct H as [e He].
  - intros [l E]. destruct l; discriminate E.
  - vm_compute in He. discriminate He.
Qed.

(** C4, amended.  If [Logger.log] is invoked with a level string that is not
    of the closed set and is not one of [constructor], [toString] and
    [isPrototypeOf], the call raises and writes nothing. *)
Theorem log_unknown_level_throws (host : Host) (message : Message) (level : string)
    (date : option Date) (w : World) :
  ~ known_level level ->
  level <> "constructor" -> level <> "toString" -> level <> "isPrototypeOf" ->
  exists e : Error, Logger.log host message (Some level) date w = (Throw e, w).
Proof.
  intros Hk Hc Ht Hi. rewrite log_run.
  destruct (toLocaleDateString host _ _) as [d|e]; [|now exists e].
  destruct (toLocaleTimeString host _ _) as [t|e]; [|now exists e].
  unfold levels_get. rewrite (levels_unknown level Hk). simpl call_logLevel.
  rewrite call_inherited_throws by assumption. now exists TypeError.
Qed.

Lemma log_unknown_level_throws_witness :
  ~ known_level "verbose"
  /\ exists e : Error,
       Logger.log SampleHost.host "Custom message!" (Some "verbose") None empty_world
       = (Throw e, empty_world).
Proof.
  assert (Hk : ~ known_level "verbose")
    by (intros [l E]; destruct l; discriminate E).
  split; [exact Hk|].
  apply (log_unknown_level_throws SampleHost.host "Custom message!" "verbose" None
           empty_world Hk); discriminate.
Defined.

(** The three names left out above: each call returns and prints a value
    that is no log line. *)
Lemma log_inherited_callable_prints (host : Host) (message : Message) (w : World)
    (d t : string) :
  toLocaleDateString host (DateOf (clock w)) (locale w) = Normal d ->
  toLocaleTimeString host (DateOf (clock w)) (locale w) = Normal t ->
  Logger.log host message (Some "toString") None w
  = (Normal tt, printed (VString "[object Undefined]") w)
  /\ Logger.log host message (Some "isPrototypeOf") None w
     = (Normal tt, printed (VBool false) w)
  /\ Logger.log host message (Some "constructor") None w
     = (Normal tt,
        printed (VStringObject ("[CONSTRUCTOR] (" +:+ d +:+ " - " +:+ t +:+ "):")) w).
Proof.
  intros Hd Ht. rewrite !log_run. simpl timestamp. rewrite Hd, Ht.
  repeat split; reflexivity.
Qed.

(** C6.  After [setLocale(L)], in every state the process reaches without
    another [setLocale], each of the five methods formats its timestamp with
    [L]; and a second [setLocale(L)] leaves the state as the first one made
    it, so the calls that follow format the same. *)
Theorem setLocale_governs_later_calls (host : Host) (L : string) (w0 w : World) :
  reached host (snd (Logger.setLocale L w0)) w ->
  (forall l message date,
      Logger_method host l message date w
      = emit (line_in_locale host L l message (timestamp date w)) w)
  /\ Logger.setLocale L (snd (Logger.setLocale L w0))
     = (Normal tt, snd (Logger.setLocale L w0))
  /\ (forall l message date,
        Logger_method host l message date
          (snd (Logger.setLocale L (snd (Logger.setLocale L w0))))
        = Logger_method host l message date (snd (Logger.setLocale L w0))).
Proof.
  intros Hw. split; [|split].
  - intros l message date. rewrite method_uses_locale.
    now rewrite (reached_keeps_locale _ _ _ Hw).
  - reflexivity.
  - reflexivity.
Qed.

Lemma setLocale_governs_later_calls_witness :
  reached SampleHost.plain_host (snd (Logger.setLocale "fr-FR" empty_world))
    (after SampleHost.plain_host (call_getEnv "EXPRESS_PORT")
       (after SampleHost.plain_host (call_method warning "Low memory detected." None)
          (snd (Logger.setLocale "fr-FR" empty_world))))
  /\ Logger.info SampleHost.plain_host "Bonjour!" (Some (DateOf 1763315422000))
       (after SampleHost.plain_host (call_getEnv "EXPRESS_PORT")
          (after SampleHost.plain_host (call_method warning "Low memory detected." None)
             (snd (Logger.setLocale "fr-FR" empty_world))))
     = emit (Normal (VString "[INFORMATION] (16/11/2025 - 17:50:22): Bonjour!"))
         (after SampleHost.plain_host (call_getEnv "EXPRESS_PORT")
            (after SampleHost.plain_host (call_method warning "Low memory detected." None)
               (snd (Logger.setLocale "fr-FR" empty_world)))).
Proof.
  assert (Hw : reached SampleHost.plain_host (snd (Logger.setLocale "fr-FR" empty_world))
                 (after SampleHost.plain_host (call_getEnv "EXPRESS_PORT")
                    (after SampleHost.plain_host
                       (call_method warning "Low memory detected." None)
                       (snd (Logger.setLocale "fr-FR" empty_world)))))
    by (apply reached_call, reached_call, reached_start).
  split; [exact Hw|].
  exact (proj1 (setLocale_governs_later_calls SampleHost.plain_host "fr-FR" empty_world _ Hw)
           information "Bonjour!" (Some (DateOf 1763315422000))).
Defined.

(** ** The environment accessor *)

(** The value [setOrGetNodeEnv] settles on. *)
Lemma setOrGetNodeEnv_run (nodeEnv : option string) (w : World) :
  setOrGetNodeEnv nodeEnv w =
  let v := match nodeEnv with
           | Some s => s
           | None => default "development" (env w !! "NODE_ENV")
           end in
  (Normal (VString v), set_env (insert "NODE_ENV" v) w).
Proof.
  unfold setOrGetNodeEnv, bind, process_env_get, process_env_set. simpl.
  destruct nodeEnv as [s|]; simpl.
  - destruct (env w !! "NODE_ENV"); simpl; now rewrite lookup_insert_eq.
  - destruct (env w !! "NODE_ENV") as [s|]; simpl; now rewrite lookup_insert_eq.
Qed.

(** Once [NODE_ENV] holds [v], a call with [v] or without argument returns
    [v] and changes nothing. *)
Lemma setOrGetNodeEnv_settled (v : string) (with_argument : bool) (w : World) :
  env w !! "NODE_ENV" = Some v ->
  setOrGetNodeEnv (if with_argument then Some v else None) w = (Normal (VString v), w).
Proof.
  intros H. rewrite setOrGetNodeEnv_run.
  destruct with_argument; simpl; rewrite ?H; simpl;
    unfold set_env; rewrite (insert_id _ _ _ H); now destruct w.
Qed.

(** C7.  With no argument and no [NODE_ENV] in the environment,
    [setOrGetNodeEnv] returns ["development"]. *)
Theorem setOrGetNodeEnv_default (w : World) :
  env w !! "NODE_ENV" = None ->
  fst (setOrGetNodeEnv None w) = Normal (VString "development").
Proof.
  intros H. rewrite setOrGetNodeEnv_run, H. reflexivity.
Qed.

Lemma setOrGetNodeEnv_default_witness :
  env empty_world !! "NODE_ENV" = None
  /\ fst (setOrGetNodeEnv None empty_world) = Normal (VString "development").
Proof.
  split; [reflexivity | apply (setOrGetNodeEnv_default empty_world); reflexivity].
Defined.

(** C8.  For every [v], [setOrGetNodeEnv(v)] returns [v] and a following
    call without argument returns [v]; and however the two forms of the call
    are then repeated, each returns [v] and the state stays as the first call
    left it. *)
Theorem setOrGetNodeEnv_set_then_get (v : string) (w : World) (again : list bool) :
  exists w1 : World,
    setOrGetNodeEnv (Some v) w = (Normal (VString v), w1)
    /\ setOrGetNodeEnv None w1 = (Normal (VString v), w1)
    /\ setOrGetNodeEnv_each
         (map (fun with_argument : bool => if with_argument then Some v else None) again) w1
       = (Normal (map (fun _ => VString v) again), w1).
Proof.
  exists (set_env (insert "NODE_ENV" v) w).
  assert (H : env (set_env (insert "NODE_ENV" v) w) !! "NODE_ENV" = Some v)
    by apply lookup_insert_eq.
  split; [apply setOrGetNodeEnv_run|].
  split; [exact (setOrGetNodeEnv_settled v false _ H)|].
  induction again as [|b again IH]; [reflexivity|].
  cbn [map setOrGetNodeEnv_each]. unfold bind at 1.
  rewrite (setOrGetNodeEnv_settled v b _ H).
  unfold bind at 1. rewrite IH. reflexivity.
Qed.

(** C9.  Every call of [setOrGetNodeEnv] assigns [NODE_ENV]: afterwards the
    variable is defined and holds the returned value.  In particular the call
    without argument, on an environment without [NODE_ENV], stores
    ["development"] there. *)
Theorem setOrGetNodeEnv_writes (nodeEnv : option string) (w : World) :
  (exists v : string,
      setOrGetNodeEnv nodeEnv w = (Normal (VString v), set_env (insert "NODE_ENV" v) w)
      /\ env (snd (setOrGetNodeEnv nodeEnv w)) !! "NODE_ENV" = Some v)
  /\ (nodeEnv = None -> env w !! "NODE_ENV" = None ->
      env (snd (setOrGetNodeEnv nodeEnv w)) !! "NODE_ENV" = Some "development").
Proof.
  rewrite setOrGetNodeEnv_run. simpl. split.
  - eexists. split; [reflexivity | apply lookup_insert_eq].
  - intros -> H. rewrite H. apply lookup_insert_eq.
Qed.

Lemma setOrGetNodeEnv_writes_witness :
  env empty_world !! "NODE_ENV" = None
  /\ env (snd (setOrGetNodeEnv None empty_world)) !! "NODE_ENV" = Some "development".
Proof.
  split; [reflexivity|].
  exact (proj2 (setOrGetNodeEnv_writes None empty_world) eq_refl eq_refl).
Defined.


(** [getEnv] on a value that passes the test [!variable]. *)
Lemma getEnv_truthy (host : Host) (key : string) (w : World) (v : Value) :
  fst (process_env_get key w) = Normal v -> truthy v = true ->
  getEnv host key w = (Normal v, w).
Proof.
  intros Hv Ht.
  unfold getEnv, bind, process_env_get in *. cbn [fst] in Hv.
  injection Hv as Hv. rewrite Hv, Ht. reflexivity.
Qed.

(** [getEnv] on a value that fails it, when the formatters answer. *)
Lemma getEnv_falsy (host : Host) (key : string) (w : World) (v : Value) (d t : string) :
  fst (process_env_get key w) = Normal v -> truthy v = false ->
  toLocaleDateString host (DateOf (clock w)) (locale w) = Normal d ->
  toLocaleTimeString host (DateOf (clock w)) (locale w) = Normal t ->
  getEnv host key w =
  (Normal VUndefined,
   printed (VString (paint host chalk.red
                       (log_line "ERROR" d t
                          ("The key '" +:+ key +:+
                           "' does not exist! Check the '*.env' path or key name and ensure it has the correct spellng.")))) w).
Proof.
  intros Hv Hf Hd Ht.
  unfold getEnv, bind, process_env_get in *. cbn [fst] in Hv.
  injection Hv as Hv. rewrite Hv, Hf. cbn [negb].
  pose proof (method_cases host error
                ("The key '" +:+ key +:+
                 "' does not exist! Check the '*.env' path or key name and ensure it has the correct spellng.")
                None w) as M.
  cbn [Logger_method timestamp] in M. rewrite M, Hd, Ht. reflexivity.
Qed.

(** A variable with a non-empty value is returned, silently. *)
Lemma getEnv_present (host : Host) (key v : string) (w : World) :
  env w !! key = Some v -> v <> EmptyString ->
  getEnv host key w = (Normal (VString v), w).
Proof.
  intros H Hv. apply getEnv_truthy.
  - unfold process_env_get. simpl. now rewrite H.
  - simpl. destruct (String.eqb_spec v EmptyString); [contradiction | reflexivity].
Qed.

(** A variable set to the empty string is reported as if it were missing. *)
Lemma getEnv_present_empty (host : Host) (key : string) (w : World) (d t : string) :
  env w !! key = Some EmptyString ->
  toLocaleDateString host (DateOf (clock w)) (locale w) = Normal d ->
  toLocaleTimeString host (DateOf (clock w)) (locale w) = Normal t ->
  exists line : Value,
    getEnv host key w = (Normal VUndefined, printed line w).
Proof.
  intros H Hd Ht. eexists.
  apply (getEnv_falsy host key w (VString EmptyString) d t); try assumption.
  - unfold process_env_get. simpl. now rewrite H.
  - reflexivity.
Qed.

(** C1, at the failing input.  [EXISTING_KEY] is set, to the empty string.
    The claim has [getEnv] return the value and print nothing; [getEnv] takes
    the error branch, prints that the key does not exist and returns
    [undefined]. *)
Theorem getEnv_empty_value_reported_missing :
  env (set_env (insert "EXISTING_KEY" EmptyString) empty_world) !! "EXISTING_KEY"
  = Some EmptyString
  /\ getEnv SampleHost.plain_host "EXISTING_KEY"
       (set_env (insert "EXISTING_KEY" EmptyString) empty_world)
     = (Normal VUndefined,
        printed
          (VString "[ERROR] (1/1/2025 - 12:00:00 AM): The key 'EXISTING_KEY' does not exist! Check the '*.env' path or key name and ensure it has the correct spellng.")
          (set_env (insert "EXISTING_KEY" EmptyString) empty_world)).
Proof. split; vm_compute; reflexivity. Qed.




(** * Further properties *)

(** ** The logger *)

(** X1.  A public logging call that throws has changed nothing, printed
    output included.  Its exception is the one of the date formatter, or,
    when that one answered, of the time formatter, or, when both answered,
    the one raised by the conversion of the message to a string. *)
Theorem method_throw_leaves_state (host : Host) (l : LogLevel) (message : Message)
    (date : option Date) (w w' : World) (e : Error) :
  Logger_method host l message date w = (Throw e, w') ->
  w' = w
  /\ (toLocaleDateString host (timestamp date w) (locale w) = Throw e
      \/ (exists d, toLocaleDateString host (timestamp date w) (locale w) = Normal d)
         /\ toLocaleTimeString host (timestamp date w) (locale w) = Throw e
      \/ (exists d, toLocaleDateString host (timestamp date w) (locale w) = Normal d)
         /\ (exists t, toLocaleTimeString host (timestamp date w) (locale w) = Normal t)
         /\ join_text message = Throw e).
Proof.
  rewrite method_cases.
  destruct (toLocaleDateString host _ _) as [d|e1].
  - destruct (toLocaleTimeString host _ _) as [t|e2].
    + destruct (join_text message) as [text|e3]; intros [= <- <-].
      split; [reflexivity|]. right. right. repeat split; eauto.
    + intros [= <- <-]. split; [reflexivity|]. right. left. split; eauto.
  - intros [= <- <-]. split; [reflexivity | now left].
Qed.

Lemma method_throw_leaves_state_witness :
  Logger.debug SampleHost.host MSymbol None empty_world = (Throw TypeError, empty_world)
  /\ join_text MSymbol = Throw TypeError
  /\ Logger.debug SampleHost.host "User object:" None
       (snd (Logger.setLocale "fr_FR" empty_world))
     = (Throw RangeError, snd (Logger.setLocale "fr_FR" empty_world))
  /\ snd (Logger.setLocale "fr_FR" empty_world) = snd (Logger.setLocale "fr_FR" empty_world).
Proof.
  assert (H : Logger_method SampleHost.host debug "User object:" None
                (snd (Logger.setLocale "fr_FR" empty_world))
              = (Throw RangeError, snd (Logger.setLocale "fr_FR" empty_world)))
    by (vm_compute; reflexivity).
  split; [vm_compute; reflexivity|]. split; [reflexivity|]. split; [exact H|].
  exact (proj1 (method_throw_leaves_state SampleHost.host debug "User object:" None
                  _ _ RangeError H)).
Defined.

(** X2.  A public logging call never touches the environment, the locale or
    the clock, and never rewrites what was printed: the output is as before,
    or as before with one entry added at the end. *)
Theorem method_frame (host : Host) (l : LogLevel) (message : Message)
    (date : option Date) (w : World) :
  env (snd (Logger_method host l message date w)) = env w
  /\ locale (snd (Logger_method host l message date w)) = locale w
  /\ clock (snd (Logger_method host l message date w)) = clock w
  /\ (console (snd (Logger_method host l message date w)) = console w
      \/ exists v, console (snd (Logger_method host l message date w)) = console w ++ [v]).
Proof.
  rewrite method_cases.
  destruct (toLocaleDateString host _ _); [|simpl; repeat split; eauto].
  destruct (toLocaleTimeString host _ _); [|simpl; repeat split; eauto].
  destruct (join_text message); simpl; repeat split; eauto.
Qed.

Lemma printed_all_step (v : Value) (lines : list Value) (now later : Z) (w : World) :
  printed_all lines (set_clock later (printed v (set_clock now w)))
  = printed_all (v :: lines) (set_clock later w).
Proof.
  unfold printed_all, printed, set_console, set_clock. simpl. f_equal.
  now rewrite <- app_assoc.
Qed.

Lemma printed_all_nil (w : World) : printed_all [] w = w.
Proof.
  destruct w. unfold printed_all, set_console. simpl. now rewrite app_nil_r.
Qed.

Lemma set_clock_same (w : World) : set_clock (clock w) w = w.
Proof. now destruct w. Qed.

(** One step of [log_each] whose call returns. *)
Lemma log_each_step (host : Host) (c : LogCall) (rest : list LogCall) (w : World) (v : Value) :
  prints host (locale w) c v ->
  log_each host (c :: rest) w
  = log_each host rest (printed v (set_clock (call_time c) w)).
Proof.
  unfold prints, call_timestamp. intros H. cbn [log_each]. unfold bind.
  rewrite method_uses_locale. cbn [locale set_clock].
  replace (timestamp (call_date c) (set_clock (call_time c) w))
    with (match call_date c with Some d => d | None => DateOf (call_time c) end)
    by (now destruct (call_date c)).
  rewrite H. reflexivity.
Qed.

(** X3.  Logging calls made in a row, each with a timestamp the formatters
    accept and a message that can be converted to a string, all return, and
    their entries are added to the output in the order of the calls, one per
    call; a call without a date is stamped with the time it is made at. *)
Theorem log_each_prints_in_order (host : Host) (calls : list LogCall)
    (lines : list Value) (w : World) :
  Forall2 (prints host (locale w)) calls lines ->
  log_each host calls w
  = (Normal tt, printed_all lines (set_clock (last_time calls (clock w)) w)).
Proof.
  revert lines w.
  induction calls as [|c rest IH]; intros lines w H;
    inversion H as [|? v ? lines' Hc Hrest]; subst.
  - cbn [last_time fold_left]. now rewrite set_clock_same, printed_all_nil.
  - rewrite (log_each_step host c rest w v Hc).
    rewrite (IH lines' (printed v (set_clock (call_time c) w)) Hrest).
    cbn [last_time fold_left]. f_equal. apply printed_all_step.
Qed.

Lemma log_each_prints_in_order_witness :
  log_each SampleHost.plain_host
    [ {| call_time := 1735689600000; call_level := information;
         call_message := "Application started successfully!"; call_date := None |};
      {| call_time := 1763315422000; call_level := warning;
         call_message := "Low memory detected."; call_date := None |} ]
    empty_world
  = (Normal tt,
     printed_all
       [ VString "[INFORMATION] (1/1/2025 - 12:00:00 AM): Application started successfully!";
         VString "[WARNING] (11/16/2025 - 5:50:22 PM): Low memory detected." ]
       (set_clock 1763315422000 empty_world)).
Proof.
  apply (log_each_prints_in_order SampleHost.plain_host).
  repeat constructor.
Defined.

(** X4.  When a call in such a row throws, the row ends there: the lines of
    the calls before it stay printed, the exception is the one of that call,
    and the calls after it are not made. *)
Theorem log_each_stops_at_throw (host : Host) (before : list LogCall) (c : LogCall)
    (later : list LogCall) (lines : list Value) (e : Error) (w : World) :
  Forall2 (prints host (locale w)) before lines ->
  line_in_locale host (locale w) (call_level c) (call_message c) (call_timestamp c)
  = Throw e ->
  log_each host (before ++ c :: later) w
  = (Throw e, printed_all lines (set_clock (call_time c) w)).
Proof.
  revert lines w.
  induction before as [|b rest IH]; intros lines w H Hc;
    inversion H as [|? v ? lines' Hb Hrest]; subst.
  - rewrite printed_all_nil. cbn [app log_each]. unfold bind.
    rewrite method_uses_locale. cbn [locale set_clock].
    replace (timestamp (call_date c) (set_clock (call_time c) w))
      with (call_timestamp c) by (unfold call_timestamp; now destruct (call_date c)).
    rewrite Hc. reflexivity.
  - cbn [app]. rewrite (log_each_step host b _ w v Hb).
    rewrite (IH lines' (printed v (set_clock (call_time b) w)) Hrest Hc).
    f_equal. apply printed_all_step.
Qed.

Lemma log_each_stops_at_throw_witness :
  log_each SampleHost.plain_host
    ([ {| call_time := 1735689600000; call_level := error;
          call_message := "Failed to connect to database!";
          call_date := Some InvalidDate |} ]
     ++ {| call_time := 1735689601000; call_level := fatal;
           call_message := "Critical system failure."; call_date := None |}
     :: [ {| call_time := 1735689602000; call_level := information;
             call_message := "Application started successfully!";
             call_date := Some InvalidDate |} ])
    (snd (Logger.setLocale "en_US" empty_world))
  = (Throw RangeError,
     printed_all
       [ VString "[ERROR] (Invalid Date - Invalid Date): Failed to connect to database!" ]
       (set_clock 1735689601000 (snd (Logger.setLocale "en_US" empty_world)))).
Proof.
  apply (log_each_stops_at_throw SampleHost.plain_host).
  - repeat constructor.
  - reflexivity.
Defined.

(** X5.  What a call prints depends on the locale in force and on nothing
    that happened before: logging under [A], switching to [B] and logging,
    switching back to [A] and logging the same message with the same
    timestamp prints the first line again. *)
Theorem locale_revert_reprints (host : Host) (A B : string) (l : LogLevel)
    (message : Message) (date : Date) (x y : Value) (w : World) :
  line_in_locale host A l message date = Normal x ->
  line_in_locale host B l message date = Normal y ->
  bind (Logger.setLocale A) (fun _ =>
  bind (Logger_method host l message (Some date)) (fun _ =>
  bind (Logger.setLocale B) (fun _ =>
  bind (Logger_method host l message (Some date)) (fun _ =>
  bind (Logger.setLocale A) (fun _ =>
       Logger_method host l message (Some date)))))) w
  = (Normal tt, printed_all [x; y; x] (set_locale A w)).
Proof.
  intros HA HB. unfold bind, Logger.setLocale.
  rewrite method_uses_locale. cbn [locale set_locale timestamp]. rewrite HA.
  cbn [emit]. rewrite method_uses_locale. cbn [locale set_locale timestamp printed set_console].
  rewrite HB. cbn [emit]. rewrite method_uses_locale.
  cbn [locale set_locale timestamp printed set_console]. rewrite HA. cbn [emit].
  unfold printed_all, printed, set_console, set_locale. simpl.
  now rewrite <- !app_assoc.
Qed.

Lemma locale_revert_reprints_witness :
  bind (Logger.setLocale "en-US") (fun _ =>
  bind (Logger.error SampleHost.plain_host "Oops!" (Some (DateOf 1735689600000))) (fun _ =>
  bind (Logger.setLocale "de-DE") (fun _ =>
  bind (Logger.error SampleHost.plain_host "Oops!" (Some (DateOf 1735689600000))) (fun _ =>
  bind (Logger.setLocale "en-US") (fun _ =>
       Logger.error SampleHost.plain_host "Oops!" (Some (DateOf 1735689600000))))))) empty_world
  = (Normal tt,
     printed_all [ VString "[ERROR] (1/1/2025 - 12:00:00 AM): Oops!";
                   VString "[ERROR] (1.1.2025 - 00:00:00): Oops!";
                   VString "[ERROR] (1/1/2025 - 12:00:00 AM): Oops!" ]
       (set_locale "en-US" empty_world)).
Proof.
  exact (locale_revert_reprints SampleHost.plain_host "en-US" "de-DE" error "Oops!"
           (DateOf 1735689600000) _ _ empty_world eq_refl eq_refl).
Defined.

(** X6.  [levels] has an own entry for the five names of [LogLevel] and for
    no other string, and no two levels share a style. *)
Theorem levels_exact :
  (forall (name : string) (style : ChalkInstance),
      own_property levels name = Some style <->
      exists l : LogLevel, name = LogLevel_name l /\ style = LogLevel_style l)
  /\ (forall l1 l2 : LogLevel, LogLevel_style l1 = LogLevel_style l2 -> l1 = l2).
Proof.
  split.
  - intros name style. split.
    + intros H.
      destruct (own_property levels name) as [s|] eqn:E; [|discriminate H].
      injection H as ->.
      unfold levels, own_property in E.
      repeat match type of E with
             | context [String.eqb ?k name] =>
                 destruct (String.eqb_spec k name) as [<-|_]
             end;
        try discriminate E; injection E as <-;
        [ now exists fatal | now exists error | now exists warning
        | now exists debug | now exists information ].
    + intros (l & -> & ->). now destruct l.
  - intros l1 l2 H. destruct l1, l2; try reflexivity; discriminate H.
Qed.

(** ** The environment accessor *)

(** [getEnv], by cases on the value read and on the host's answers. *)
Lemma getEnv_cases (host : Host) (key : string) (w : World) :
  getEnv host key w =
  if truthy (process_env_value key w) then (Normal (process_env_value key w), w)
  else
    match toLocaleDateString host (DateOf (clock w)) (locale w) with
    | Throw e => (Throw e, w)
    | Normal d =>
        match toLocaleTimeString host (DateOf (clock w)) (locale w) with
        | Throw e => (Throw e, w)
        | Normal t =>
            (Normal VUndefined,
             printed (VString (paint host chalk.red
                                 (log_line "ERROR" d t (missing_key_message key)))) w)
        end
    end.
Proof.
  unfold getEnv, bind, process_env_get, process_env_value.
  destruct (truthy _); [reflexivity|]. cbn [negb].
  pose proof (method_cases host error (missing_key_message key) None w) as M.
  cbn [Logger_method timestamp] in M. unfold missing_key_message in M. rewrite M.
  host_cases host. reflexivity.
Qed.

(** Nothing on [Object.prototype] is a string. *)
Lemma object_prototype_not_string (key s : string) :
  object_prototype key <> VString s.
Proof.
  unfold object_prototype, Object_prototype, own_property.
  repeat match goal with
         | |- context [String.eqb ?k key] =>
             destruct (String.eqb_spec k key) as [_|_]; [discriminate|]
         end.
  discriminate.
Qed.

(** Nor is anything else that [process.env] inherits. *)
Lemma process_env_prototype_not_string (key s : string) :
  process_env_prototype key <> VString s.
Proof.
  unfold process_env_prototype.
  destruct (String.eqb key "constructor"); [discriminate|].
  destruct (String.eqb key "__proto__"); [discriminate|].
  apply object_prototype_not_string.
Qed.

(** What [process.env] inherits under a name passes the test [!variable]. *)
Lemma process_env_prototype_truthy (key : string) :
  process_env_prototype key <> VUndefined -> truthy (process_env_prototype key) = true.
Proof.
  unfold process_env_prototype.
  destruct (String.eqb key "constructor"); [reflexivity|].
  destruct (String.eqb key "__proto__"); [reflexivity|].
  unfold object_prototype, Object_prototype, own_property.
  repeat match goal with
         | |- context [String.eqb ?k key] =>
             destruct (String.eqb_spec k key) as [_|_]; [reflexivity|]
         end.
  intros H. now contradiction H.
Qed.

(** X7.  A variable that is set to a non-empty value is returned as it is,
    and the call changes nothing and prints nothing; the logger and the host
    are not involved, so this holds under any locale. *)
Theorem getEnv_returns_set_variable (host : Host) (key v : string) (w : World) :
  env w !! key = Some v -> v <> EmptyString ->
  getEnv host key w = (Normal (VString v), w).
Proof.
  intros H Hv. rewrite getEnv_cases. unfold process_env_value. rewrite H.
  simpl truthy. now destruct (String.eqb_spec v EmptyString).
Qed.

Lemma getEnv_returns_set_variable_witness :
  env (snd (Logger.setLocale "en_US" (set_env (insert "EXPRESS_PORT" "3000") empty_world)))
    !! "EXPRESS_PORT" = Some "3000"
  /\ "3000" <> EmptyString
  /\ getEnv SampleHost.host "EXPRESS_PORT"
       (snd (Logger.setLocale "en_US" (set_env (insert "EXPRESS_PORT" "3000") empty_world)))
     = (Normal (VString "3000"),
        snd (Logger.setLocale "en_US" (set_env (insert "EXPRESS_PORT" "3000") empty_world))).
Proof.
  split; [reflexivity|]. split; [discriminate|].
  apply (getEnv_returns_set_variable SampleHost.host "EXPRESS_PORT" "3000");
    [reflexivity | discriminate].
Defined.

(** X8.  A string that [getEnv] returns is the value of the variable, and it
    is not empty; nothing was printed or changed on the way.  A caller never
    receives the empty string. *)
Theorem getEnv_string_is_variable (host : Host) (key s : string) (w w' : World) :
  getEnv host key w = (Normal (VString s), w') ->
  env w !! key = Some s /\ s <> EmptyString /\ w' = w.
Proof.
  rewrite getEnv_cases. unfold process_env_value.
  destruct (env w !! key) as [v|] eqn:E.
  - simpl truthy. destruct (String.eqb_spec v EmptyString) as [->|Hv]; simpl.
    + host_cases host; discriminate.
    + intros H. injection H as H1 H2. subst. auto.
  - destruct (truthy (process_env_prototype key)).
    + intros H. injection H as H _.
      now apply process_env_prototype_not_string in H.
    + host_cases host; discriminate.
Qed.

Lemma getEnv_string_is_variable_witness :
  getEnv SampleHost.host "OPENAI_MODEL"
    (set_env (insert "OPENAI_MODEL" "gpt-4o-mini") empty_world)
  = (Normal (VString "gpt-4o-mini"), set_env (insert "OPENAI_MODEL" "gpt-4o-mini") empty_world)
  /\ env (set_env (insert "OPENAI_MODEL" "gpt-4o-mini") empty_world) !! "OPENAI_MODEL"
     = Some "gpt-4o-mini"
  /\ "gpt-4o-mini" <> EmptyString.
Proof.
  assert (H : getEnv SampleHost.host "OPENAI_MODEL"
                (set_env (insert "OPENAI_MODEL" "gpt-4o-mini") empty_world)
              = (Normal (VString "gpt-4o-mini"),
                 set_env (insert "OPENAI_MODEL" "gpt-4o-mini") empty_world))
    by (vm_compute; reflexivity).
  split; [exact H|].
  destruct (getEnv_string_is_variable SampleHost.host "OPENAI_MODEL" "gpt-4o-mini" _ _ H)
    as (H1 & H2 & _).
  exact (conj H1 H2).
Defined.

(** X9.  [getEnv] only reads the environment: the variables, the locale and
    the clock are as before, and the output is as before or one entry
    longer. *)
Theorem getEnv_frame (host : Host) (key : string) (w : World) :
  env (snd (getEnv host key w)) = env w
  /\ locale (snd (getEnv host key w)) = locale w
  /\ clock (snd (getEnv host key w)) = clock w
  /\ (console (snd (getEnv host key w)) = console w
      \/ exists v, console (snd (getEnv host key w)) = console w ++ [v]).
Proof.
  rewrite getEnv_cases. destruct (truthy _); [simpl; auto|].
  host_cases host; simpl; repeat split; eauto.
Qed.

(** X10.  [getEnv] throws only on its error branch and only what a formatter
    threw; the state is then as it was and the error line is not printed. *)
Theorem getEnv_throw_leaves_state (host : Host) (key : string) (w w' : World) (e : Error) :
  getEnv host key w = (Throw e, w') ->
  w' = w
  /\ truthy (process_env_value key w) = false
  /\ (toLocaleDateString host (DateOf (clock w)) (locale w) = Throw e
      \/ toLocaleTimeString host (DateOf (clock w)) (locale w) = Throw e).
Proof.
  rewrite getEnv_cases. destruct (truthy _); [discriminate|].
  destruct (toLocaleDateString host _ _) as [d|e1].
  - destruct (toLocaleTimeString host _ _) as [t|e2]; intros [= <- <-]. auto.
  - intros [= <- <-]. auto.
Qed.

Lemma getEnv_throw_leaves_state_witness :
  getEnv SampleHost.host "OPENAI_API_KEY" (snd (Logger.setLocale "en_US" empty_world))
  = (Throw RangeError, snd (Logger.setLocale "en_US" empty_world))
  /\ truthy (process_env_value "OPENAI_API_KEY" (snd (Logger.setLocale "en_US" empty_world)))
     = false.
Proof.
  assert (H : getEnv SampleHost.host "OPENAI_API_KEY"
                (snd (Logger.setLocale "en_US" empty_world))
              = (Throw RangeError, snd (Logger.setLocale "en_US" empty_world)))
    by (vm_compute; reflexivity).
  split; [exact H|].
  exact (proj1 (proj2 (getEnv_throw_leaves_state SampleHost.host "OPENAI_API_KEY"
                         _ _ RangeError H))).
Defined.

(** X11.  For a key that is no variable of the environment but is found
    along the prototypes of [process.env] ([toString], [hasOwnProperty],
    [constructor], ...), [getEnv] returns what is found there: a value that
    is neither [undefined] nor a string.  It prints nothing and changes
    nothing. *)
Theorem getEnv_inherited_key (host : Host) (key : string) (w : World) :
  env w !! key = None ->
  process_env_prototype key <> VUndefined ->
  exists v : Value,
    getEnv host key w = (Normal v, w)
    /\ v = process_env_prototype key
    /\ v <> VUndefined
    /\ (forall s, v <> VString s).
Proof.
  intros H Hp. exists (process_env_prototype key).
  split; [|split; [reflexivity | split; [exact Hp|]]].
  - rewrite getEnv_cases. unfold process_env_value. rewrite H.
    now rewrite (process_env_prototype_truthy key Hp).
  - intros s. apply process_env_prototype_not_string.
Qed.

Lemma getEnv_inherited_key_witness :
  env empty_world !! "hasOwnProperty" = None
  /\ process_env_prototype "hasOwnProperty" <> VUndefined
  /\ exists v : Value,
       getEnv SampleHost.host "hasOwnProperty" empty_world = (Normal v, empty_world)
       /\ v = VBuiltin hasOwnProperty
       /\ v <> VUndefined
       /\ (forall s, v <> VString s).
Proof.
  assert (Hp : process_env_prototype "hasOwnProperty" <> VUndefined) by discriminate.
  split; [reflexivity|]. split; [exact Hp|].
  exact (getEnv_inherited_key SampleHost.host "hasOwnProperty" empty_world eq_refl Hp).
Defined.

(** X12.  [setOrGetNodeEnv] never throws and assigns [NODE_ENV] alone: every
    other variable, the locale, the output and the clock are as before. *)
Theorem setOrGetNodeEnv_frame (nodeEnv : option string) (w : World) :
  (exists v, fst (setOrGetNodeEnv nodeEnv w) = Normal v)
  /\ (forall key, key <> "NODE_ENV" ->
        env (snd (setOrGetNodeEnv nodeEnv w)) !! key = env w !! key)
  /\ locale (snd (setOrGetNodeEnv nodeEnv w)) = locale w
  /\ console (snd (setOrGetNodeEnv nodeEnv w)) = console w
  /\ clock (snd (setOrGetNodeEnv nodeEnv w)) = clock w.
Proof.
  rewrite setOrGetNodeEnv_run. simpl. split; [eauto|].
  split; [|auto]. intros key Hk. now apply lookup_insert_ne.
Qed.

Lemma setOrGetNodeEnv_frame_witness :
  env (snd (setOrGetNodeEnv (Some "testing")
              (set_env (insert "EXPRESS_PORT" "3000") empty_world))) !! "EXPRESS_PORT"
  = Some "3000".
Proof.
  rewrite (proj1 (proj2 (setOrGetNodeEnv_frame (Some "testing")
                           (set_env (insert "EXPRESS_PORT" "3000") empty_world)))
             "EXPRESS_PORT"); [reflexivity | discriminate].
Defined.

(** X13.  Without argument and with [NODE_ENV] set, [setOrGetNodeEnv] returns
    the value it finds and leaves the state as it is.  The empty string counts
    as set: it is returned, not replaced by ["development"]. *)
Theorem setOrGetNodeEnv_reads_existing (v : string) (w : World) :
  env w !! "NODE_ENV" = Some v ->
  setOrGetNodeEnv None w = (Normal (VString v), w).
Proof. exact (setOrGetNodeEnv_settled v false w). Qed.

Lemma setOrGetNodeEnv_reads_existing_witness :
  env (set_env (insert "NODE_ENV" EmptyString) empty_world) !! "NODE_ENV" = Some EmptyString
  /\ setOrGetNodeEnv None (set_env (insert "NODE_ENV" EmptyString) empty_world)
     = (Normal (VString EmptyString), set_env (insert "NODE_ENV" EmptyString) empty_world).
Proof.
  split; [reflexivity|].
  apply (setOrGetNodeEnv_reads_existing EmptyString). reflexivity.
Defined.

(** X14.  Of two calls with an argument the later one decides: the result
    and the state are those of the second call made alone. *)
Theorem setOrGetNodeEnv_last_wins (a b : string) (w : World) :
  bind (setOrGetNodeEnv (Some a)) (fun _ => setOrGetNodeEnv (Some b)) w
  = setOrGetNodeEnv (Some b) w.
Proof.
  unfold bind. rewrite (setOrGetNodeEnv_run (Some a) w). cbv zeta beta iota.
  rewrite !setOrGetNodeEnv_run. cbv zeta.
  unfold set_env. cbn [env locale console clock]. now rewrite insert_insert_eq.
Qed.

(** X15.  What [setOrGetNodeEnv] returned is what [getEnv("NODE_ENV")] then
    returns, without a log line, provided it is not the empty string. *)
Theorem getEnv_after_setOrGetNodeEnv (host : Host) (nodeEnv : option string)
    (v : string) (w : World) :
  fst (setOrGetNodeEnv nodeEnv w) = Normal (VString v) ->
  v <> EmptyString ->
  getEnv host "NODE_ENV" (snd (setOrGetNodeEnv nodeEnv w))
  = (Normal (VString v), snd (setOrGetNodeEnv nodeEnv w)).
Proof.
  rewrite setOrGetNodeEnv_run. simpl. intros [= <-] Hv.
  apply getEnv_present; [apply lookup_insert_eq | exact Hv].
Qed.

Lemma getEnv_after_setOrGetNodeEnv_witness :
  fst (setOrGetNodeEnv None empty_world) = Normal (VString "development")
  /\ "development" <> EmptyString
  /\ getEnv SampleHost.host "NODE_ENV" (snd (setOrGetNodeEnv None empty_world))
     = (Normal (VString "development"), snd (setOrGetNodeEnv None empty_world)).
Proof.
  split; [reflexivity|]. split; [discriminate|].
  apply (getEnv_after_setOrGetNodeEnv SampleHost.host None "development" empty_world);
    [reflexivity | discriminate].
Defined.

(** The other side of X15: after [setOrGetNodeEnv("")] the variable is set
    and [getEnv("NODE_ENV")] still reports it missing. *)
Example getEnv_after_empty_mode :
  getEnv SampleHost.plain_host "NODE_ENV" (snd (setOrGetNodeEnv (Some EmptyString) empty_world))
  = (Normal VUndefined,
     printed (VString "[ERROR] (1/1/2025 - 12:00:00 AM): The key 'NODE_ENV' does not exist! Check the '*.env' path or key name and ensure it has the correct spellng.")
       (snd (setOrGetNodeEnv (Some EmptyString) empty_world))).
Proof. vm_compute. reflexivity. Qed.

(** ** The configuration read at start-up *)

(** Assigning [NODE_ENV] and letting time pass do not change what another
    variable reads as. *)
Lemma lookup_after_mode (key mode : string) (now : Z) (w : World) :
  key <> "NODE_ENV" ->
  env (set_clock now (set_env (insert "NODE_ENV" mode) w)) !! key = env w !! key.
Proof. intros H. simpl. now apply lookup_insert_ne. Qed.

(** [index.load], call by call. *)
Lemma load_run (host : Host) (t_port t_apiKey : Z) (w : World) :
  index.load host t_port t_apiKey w =
  let mode := default "development" (env w !! "NODE_ENV") in
  match getEnv host "EXPRESS_PORT"
          (set_clock t_port (set_env (insert "NODE_ENV" mode) w)) with
  | (Throw e, w2) => (Throw e, w2)
  | (Normal p, w2) =>
      match getEnv host "OPENAI_API_KEY" (set_clock t_apiKey w2) with
      | (Throw e, w3) => (Throw e, w3)
      | (Normal k, w3) =>
          (Normal {| index.nodeEnv := VString mode; index.port := p; index.apiKey := k |}, w3)
      end
  end.
Proof.
  unfold index.load. unfold bind at 1. rewrite setOrGetNodeEnv_run. cbv zeta.
  unfold bind, ret, later.
  destruct (getEnv host "EXPRESS_PORT" _) as [[p|e] w2]; [|reflexivity].
  destruct (getEnv host "OPENAI_API_KEY" _) as [[k|e] w3]; reflexivity.
Qed.

(** X16.  With [EXPRESS_PORT] and [OPENAI_API_KEY] set to non-empty values,
    start-up reads them without printing anything and without consulting the
    host; apart from the time that passes, its one effect is the assignment
    of [NODE_ENV], to the value found there or to ["development"]. *)
Theorem load_configured (host : Host) (t_port t_apiKey : Z) (w : World) (p k : string) :
  env w !! "EXPRESS_PORT" = Some p -> p <> EmptyString ->
  env w !! "OPENAI_API_KEY" = Some k -> k <> EmptyString ->
  index.load host t_port t_apiKey w
  = (Normal {| index.nodeEnv := VString (default "development" (env w !! "NODE_ENV"));
               index.port := VString p;
               index.apiKey := VString k |},
     set_clock t_apiKey
       (set_env (insert "NODE_ENV" (default "development" (env w !! "NODE_ENV"))) w)).
Proof.
  intros Hp Hp' Hk Hk'. rewrite load_run. cbv zeta.
  rewrite (getEnv_present host "EXPRESS_PORT" p) by
      (first [assumption | rewrite lookup_after_mode by discriminate; assumption]).
  rewrite (getEnv_present host "OPENAI_API_KEY" k) by
      (first [assumption
             | simpl; rewrite lookup_insert_ne by discriminate; assumption]).
  reflexivity.
Qed.

Lemma load_configured_witness :
  index.load SampleHost.host 1735689600100 1735689600200
    (snd (Logger.setLocale "en_US"
            (set_env (insert "OPENAI_API_KEY" "sk-test")
               (set_env (insert "EXPRESS_PORT" "3000") empty_world))))
  = (Normal {| index.nodeEnv := VString "development";
               index.port := VString "3000";
               index.apiKey := VString "sk-test" |},
     set_clock 1735689600200
       (set_env (insert "NODE_ENV" "development")
          (snd (Logger.setLocale "en_US"
                  (set_env (insert "OPENAI_API_KEY" "sk-test")
                     (set_env (insert "EXPRESS_PORT" "3000") empty_world)))))).
Proof.
  assert (Hp : "3000" <> EmptyString) by discriminate.
  assert (Hk : "sk-test" <> EmptyString) by discriminate.
  exact (load_configured SampleHost.host 1735689600100 1735689600200
           (snd (Logger.setLocale "en_US"
                   (set_env (insert "OPENAI_API_KEY" "sk-test")
                      (set_env (insert "EXPRESS_PORT" "3000") empty_world))))
           "3000" "sk-test" eq_refl Hp eq_refl Hk).
Defined.

(** X17.  With neither variable in the environment, and formatters that
    accept the locale at both moments, start-up returns [undefined] for both
    and prints two error lines, the one about [EXPRESS_PORT] first, each
    stamped with the time at which its [getEnv] ran. *)
Theorem load_unconfigured (host : Host) (t_port t_apiKey : Z) (w : World)
    (d1 t1 d2 t2 : string) :
  env w !! "EXPRESS_PORT" = None ->
  env w !! "OPENAI_API_KEY" = None ->
  toLocaleDateString host (DateOf t_port) (locale w) = Normal d1 ->
  toLocaleTimeString host (DateOf t_port) (locale w) = Normal t1 ->
  toLocaleDateString host (DateOf t_apiKey) (locale w) = Normal d2 ->
  toLocaleTimeString host (DateOf t_apiKey) (locale w) = Normal t2 ->
  index.load host t_port t_apiKey w
  = (Normal {| index.nodeEnv := VString (default "development" (env w !! "NODE_ENV"));
               index.port := VUndefined;
               index.apiKey := VUndefined |},
     printed_all
       [ VString (paint host chalk.red
                    (log_line "ERROR" d1 t1 (missing_key_message "EXPRESS_PORT")));
         VString (paint host chalk.red
                    (log_line "ERROR" d2 t2 (missing_key_message "OPENAI_API_KEY"))) ]
       (set_clock t_apiKey
          (set_env (insert "NODE_ENV" (default "development" (env w !! "NODE_ENV"))) w))).
Proof.
  intros Hp Hk Hd1 Ht1 Hd2 Ht2. rewrite load_run. cbv zeta.
  set (w0 := set_env (insert "NODE_ENV" (default "development" (env w !! "NODE_ENV"))) w).
  rewrite (getEnv_falsy host "EXPRESS_PORT" (set_clock t_port w0) VUndefined d1 t1);
    [ | unfold process_env_get; cbn [fst]; unfold w0;
        rewrite lookup_after_mode, Hp by discriminate; reflexivity
      | reflexivity | exact Hd1 | exact Ht1 ].
  rewrite (getEnv_falsy host "OPENAI_API_KEY" _ VUndefined d2 t2);
    [ | unfold process_env_get; cbn [fst]; unfold w0;
        simpl; rewrite lookup_insert_ne, Hk by discriminate; reflexivity
      | reflexivity | exact Hd2 | exact Ht2 ].
  unfold missing_key_message, printed_all, printed, set_console, set_clock. simpl.
  now rewrite <- app_assoc.
Qed.

Lemma load_unconfigured_witness :
  index.load SampleHost.plain_host 1735689659000 1735689661000 empty_world
  = (Normal {| index.nodeEnv := VString "development";
               index.port := VUndefined;
               index.apiKey := VUndefined |},
     printed_all
       [ VString "[ERROR] (1/1/2025 - 12:00:59 AM): The key 'EXPRESS_PORT' does not exist! Check the '*.env' path or key name and ensure it has the correct spellng.";
         VString "[ERROR] (1/1/2025 - 12:01:01 AM): The key 'OPENAI_API_KEY' does not exist! Check the '*.env' path or key name and ensure it has the correct spellng." ]
       (set_clock 1735689661000 (set_env (insert "NODE_ENV" "development") empty_world))).
Proof.
  exact (load_unconfigured SampleHost.plain_host 1735689659000 1735689661000 empty_world
           "1/1/2025" "12:00:59 AM" "1/1/2025" "12:01:01 AM"
           eq_refl eq_refl eq_refl eq_refl eq_refl eq_refl).
Defined.

(** X18.  When start-up found no [EXPRESS_PORT] and went on, the line printed
    later, once the server listens, names the mode and, for the port, the
    word [undefined]. *)
Theorem listening_after_load_without_port (host : Host) (t_port t_apiKey : Z)
    (w w1 w2 : World) (c : index.Constants) (d t : string) :
  index.load host t_port t_apiKey w = (Normal c, w1) ->
  env w !! "EXPRESS_PORT" = None ->
  toLocaleDateString host (DateOf (clock w2)) (locale w2) = Normal d ->
  toLocaleTimeString host (DateOf (clock w2)) (locale w2) = Normal t ->
  index.listening host c w2
  = (Normal tt,
     printed (VString (paint host chalk.green
                         (log_line "INFORMATION" d t
                            ("Application is in " +:+
                             default "development" (env w !! "NODE_ENV") +:+
                             " listening on undefined.")))) w2).
Proof.
  intros H Hp Hd Ht. rewrite load_run in H. cbv zeta in H.
  set (w0 := set_clock t_port
               (set_env (insert "NODE_ENV" (default "development" (env w !! "NODE_ENV"))) w))
    in H.
  assert (K : index.nodeEnv c = VString (default "development" (env w !! "NODE_ENV"))
              /\ index.port c = VUndefined).
  { rewrite getEnv_cases in H. unfold process_env_value at 1 in H. unfold w0 at 1 in H.
    rewrite lookup_after_mode, Hp in H by discriminate.
    cbn [process_env_prototype String.eqb Ascii.eqb Bool.eqb] in H.
    change (process_env_prototype "EXPRESS_PORT") with VUndefined in H.
    simpl truthy in H. cbv iota in H.
    destruct (toLocaleDateString host (DateOf (clock w0)) (locale w0)); [|discriminate H].
    destruct (toLocaleTimeString host (DateOf (clock w0)) (locale w0)); [|discriminate H].
    destruct (getEnv host "OPENAI_API_KEY" _) as [[k|e'] w3]; [|discriminate H].
    injection H as <- _. auto. }
  destruct K as (Kn & Kp).
  unfold index.listening. rewrite Kn, Kp.
  match goal with
  | |- Logger.info host (MString ?m) None w2 = _ =>
      pose proof (method_cases host information (MString m) None w2) as M
  end.
  cbn [Logger_method timestamp join_text] in M. rewrite Hd, Ht in M. exact M.
Qed.

Lemma listening_after_load_without_port_witness :
  index.load SampleHost.plain_host 1735689600000 1735689600000
    (set_env (insert "OPENAI_API_KEY" "sk-test") empty_world)
  = (Normal {| index.nodeEnv := VString "development";
               index.port := VUndefined;
               index.apiKey := VString "sk-test" |},
     printed
       (VString "[ERROR] (1/1/2025 - 12:00:00 AM): The key 'EXPRESS_PORT' does not exist! Check the '*.env' path or key name and ensure it has the correct spellng.")
       (set_env (insert "NODE_ENV" "development")
          (set_env (insert "OPENAI_API_KEY" "sk-test") empty_world)))
  /\ index.listening SampleHost.plain_host
       {| index.nodeEnv := VString "development";
          index.port := VUndefined;
          index.apiKey := VString "sk-test" |}
       (set_clock 1735689601000 empty_world)
     = (Normal tt,
        printed
          (VString "[INFORMATION] (1/1/2025 - 12:00:01 AM): Application is in development listening on undefined.")
          (set_clock 1735689601000 empty_world)).
Proof.
  assert (H : index.load SampleHost.plain_host 1735689600000 1735689600000
                (set_env (insert "OPENAI_API_KEY" "sk-test") empty_world)
              = (Normal {| index.nodeEnv := VString "development";
                           index.port := VUndefined;
                           index.apiKey := VString "sk-test" |},
                 printed
                   (VString "[ERROR] (1/1/2025 - 12:00:00 AM): The key 'EXPRESS_PORT' does not exist! Check the '*.env' path or key name and ensure it has the correct spellng.")
                   (set_env (insert "NODE_ENV" "development")
                      (set_env (insert "OPENAI_API_KEY" "sk-test") empty_world))))
    by (vm_compute; reflexivity).
  split; [exact H|].
  exact (listening_after_load_without_port SampleHost.plain_host _ _ _ _
           (set_clock 1735689601000 empty_world) _
           "1/1/2025" "12:00:01 AM" H eq_refl eq_refl eq_refl).
Defined.
